(** * The CMS physics notebook of floability-cli, as a program over its libraries

    [example/cms-physics-coffea/cms-physics-coffea.ipynb] is a two-cell
    notebook.  The first cell installs a warnings filter and sets up an
    execution backend; the second one opens a ROOT file, declares a
    histogram of the missing transverse energy, fills it lazily and asks
    the backend to compute and plot it.

    The notebook is embedded as a program in a state-and-exception monad.
    What Python itself does (the [warnings] filter list, [os.environ],
    f-strings, tuples and dicts, exception propagation) is modelled
    directly.  The third-party libraries (coffea, hist, dask-awkward,
    TaskVine, distributed) are not part of the repository: they enter as an
    arbitrary answer function [lib], and every statement below is proved
    for all such functions unless it says otherwise.

    Cells run in order and the run stops at the first exception, as with
    "Run All".  Imports bind names and are assumed to complete; they are
    recorded in the log because module code runs while they execute. *)

From Stdlib Require Import Ascii String ZArith QArith Qround Qfield Lqa.
From stdpp Require Import base strings list gmap.

Local Open Scope Z_scope.

(** ** Regular expressions: the fragment the notebook uses

    [warnings.filterwarnings] compiles its [module] argument with
    [re.compile] and tests module names with [pattern.match], which anchors
    at the start of the text only.  The notebook's pattern is ["coffea.*"]:
    literal characters, [.] (any character but a newline) and a postfix
    [*].  Only that fragment is modelled. *)
Module re.








End re.

(** ** The [warnings] module: filter list and dispatch *)
Module warnings.

(** Warning categories: the base class [Warning] and classes below it. *)
Inductive category := Warning | Subclass (name : string).

#[global] Instance category_eq_dec : EqDecision category.
Proof. solve_decision. Defined.


(** One entry of [warnings.filters]: the tuple
    [(action, message, category, module, lineno)], where [message] and
    [module] are compiled patterns or [None]. *)
Record filter := Filter {
  action : string;
  message : option string;
  cat : category;
  module : option string;
  lineno : Z
}.

#[global] Instance filter_eq_dec : EqDecision filter.
Proof. solve_decision. Defined.


(** [list.remove]: drops the first equal element (Python raises
    [ValueError] when there is none, which [_add_filter] swallows). *)
Fixpoint remove_first (item : filter) (l : list filter) : list filter :=
  match l with
  | [] => []
  | x :: r => if decide (x = item) then r else x :: remove_first item r
  end.

(** [warnings.filterwarnings(action, message, category, module, lineno,
    append)] acting on the filter list. *)
Definition filterwarnings (action_ message_ : string) (category_ : category)
    (module_ : string) (lineno_ : Z) (append : bool)
    (filters : list filter) : list filter :=
  let item :=
    Filter action_
      (if decide (message_ = "") then None else Some message_)
      category_
      (if decide (module_ = "") then None else Some module_)
      lineno_ in
  if append
  then (if decide (item ∈ filters) then filters else filters ++ [item])
  else item :: remove_first item filters.




End warnings.

(** ** Histogram axes

    [Reg(bins, start, stop, name=..., label=...)] declares a regular axis:
    [bins] half-open intervals of equal width between [start] and [stop]. *)
Module hist.

Record axis := Reg_axis {
  bins : Z;
  start : Z;
  stop : Z;
  name : string;
  label : string
}.



End hist.

(** ** Python values the notebook handles *)

Inductive exn :=
| KeyError (key : string)          (* a missing key of [os.environ] *)
| LibraryError (what : string).    (* anything a library raises *)

Inductive result (A : Type) :=
| Ok (a : A)
| Raise (e : exn).
Arguments Ok {A} a.
Arguments Raise {A} e.

Section Notebook.

(** References to library objects, and the state of the world the
    libraries live in (file system, workers, ...). *)
Context {obj W : Type}.

(** Values of the keyword dict [executor_args]. *)
Inductive pyval := PObj (o : obj) | PBool (b : bool).

(** The library operations the notebook invokes, with their arguments. *)
Inductive libcall :=
| DaskVine (name : string)
| Client
| from_root (files : gmap (list string) string) (metadata : gmap string string)
| events (factory : obj)
| getattr (o : obj) (field : string)
| Reg (ax : hist.axis)
| Double (builder : obj)
| fill (h : obj) (values : obj)
| compute (h : obj) (kwargs : gmap string pyval)
| plot1d (h : obj)
| necessary_columns (h : obj).

(** What the run did, in order: imports and library calls with the
    answer each call got. *)
Inductive stmt :=
| Import (module : string)
| CallLib (c : libcall) (a : result obj).

(** A log entry also records the warnings filters in force while the
    statement ran. *)
Record entry := Entry { what : stmt; in_force : list warnings.filter }.

Record runtime := Runtime {
  filters : list warnings.filter;   (* [warnings.filters] *)
  world : W;
  log : list entry
}.

(** The libraries: each call gets an object or an exception and may
    change the world. *)
Variable lib : libcall -> W -> result obj * W.
(** [os.environ] *)
Variable environ : gmap string string.
(** [os.path.abspath], a function of the working directory. *)
Variable abspath : string -> string.

Definition M (A : Type) : Type := runtime -> result A * runtime.

#[local] Instance M_ret : MRet M := fun A a rt => (Ok a, rt).
#[local] Instance M_bind : MBind M := fun A B f m rt =>
  match m rt with
  | (Ok a, rt') => f a rt'
  | (Raise e, rt') => (Raise e, rt')
  end.

Definition raise {A} (e : exn) : M A := fun rt => (Raise e, rt).

Definition record (s : stmt) (rt : runtime) : list entry :=
  log rt ++ [Entry s (filters rt)].

Definition import (module : string) : M unit := fun rt =>
  (Ok tt, Runtime (filters rt) (world rt) (record (Import module) rt)).

Definition call (c : libcall) : M obj := fun rt =>
  let '(a, w) := lib c (world rt) in
  (a, Runtime (filters rt) w (record (CallLib c a) rt)).

(** [os.environ[key]] *)
Definition environ_get (key : string) : M string :=
  match environ !! key with
  | Some v => mret v
  | None => raise (KeyError key)
  end.

(** [warnings.filterwarnings(action, module=module)], the other
    parameters at their defaults. *)
Definition warnings_filterwarnings (action module : string) : M unit := fun rt =>
  (Ok tt,
   Runtime (warnings.filterwarnings action "" warnings.Warning module 0 false (filters rt))
           (world rt) (log rt)).

(** *** First cell *)

Definition use_taskvine : bool := true.

Definition backend (use_taskvine : bool) : M (gmap string pyval) :=
  if use_taskvine then
    import "ndcctools.taskvine";;
    user ← environ_get "USER";
    vine_manager ← call (DaskVine (user +:+ "-coffea-example-4"));
    mret {[ "scheduler" := PObj vine_manager; "worker_transfers" := PBool true ]}
  else
    import "distributed";;
    client ← call Client;
    mret ∅.

Definition cell1 (use_taskvine : bool) : M (gmap string pyval) :=
  import "os";;
  import "coffea.nanoevents";;
  import "coffea";;
  import "dask_awkward";;
  import "hist.dask";;
  import "warnings";;
  warnings_filterwarnings "error" "coffea.*";;
  backend use_taskvine.

(** *** Second cell *)

Definition data_url : string := "file://" +:+ abspath "data/small_data.root".

Definition data_file : list string := [data_url].

Definition met_axis : hist.axis :=
  hist.Reg_axis 100 0 200 "met" "$E_{T}^{miss}$ [GeV]".

Definition cell2 (executor_args : gmap string pyval) : M obj :=
  factory ← call (from_root {[ data_file := "/Events" ]} {[ "dataset" := "SingleMu" ]});
  events_ ← call (events factory);
  builder ← call (Reg met_axis);
  empty ← call (Double builder);
  met ← call (getattr events_ "MET");
  pt ← call (getattr met "pt");
  q1_hist ← call (fill empty pt);
  h ← call (compute q1_hist executor_args);
  call (plot1d h);;
  call (necessary_columns q1_hist).

Definition notebook_with (flag : bool) : M obj :=
  executor_args ← cell1 flag;
  cell2 executor_args.

Definition notebook : M obj := notebook_with use_taskvine.

(** A run starts with the interpreter's filters, a world and an empty
    log. *)
Definition run (flag : bool) (filters0 : list warnings.filter) (w0 : W)
    : result obj * runtime :=
  notebook_with flag (Runtime filters0 w0 []).

End Notebook.

Arguments pyval : clear implicits.
Arguments libcall : clear implicits.
Arguments stmt : clear implicits.
Arguments entry : clear implicits.
Arguments runtime : clear implicits.

(** ** Reading a run's log *)

(** The statements of a log, and the library calls among them. *)
Definition stmts {obj} (l : list (entry obj)) : list (stmt obj) := map what l.

Definition calls {obj} (l : list (entry obj)) : list (libcall obj) :=
  omap (fun e => match what e with CallLib c _ => Some c | Import _ => None end) l.

(** Calls that declare, build or deliver a histogram. *)
Definition histogram_call {obj} (c : libcall obj) : bool :=
  match c with
  | Reg _ | Double _ | fill _ _ | compute _ _ | plot1d _ => true
  | _ => false
  end.


(** The arguments the notebook hands to [NanoEventsFactory.from_root]. *)
Definition reader_call {obj} (abspath : string -> string) : libcall obj :=
  from_root {[ ["file://" +:+ abspath "data/small_data.root"] := "/Events" ]}
            {[ "dataset" := "SingleMu" ]}.


(** ** Concrete worlds, to run the notebook on *)
Module Demo.

(** Objects are numbered as they are created. *)
Definition lib (c : libcall nat) (next : nat) : result nat * nat :=
  (Ok next, S next).


Definition environ : gmap string string := {[ "USER" := "alice" ]}.

Definition abspath (path : string) : string := "/home/alice/" +:+ path.


(** The filter list a Python interpreter starts with. *)
Definition default_filters : list warnings.filter :=
  [ warnings.Filter "default" None (warnings.Subclass "DeprecationWarning")
                    (Some "__main__") 0;
    warnings.Filter "ignore" None (warnings.Subclass "DeprecationWarning") None 0;
    warnings.Filter "ignore" None (warnings.Subclass "PendingDeprecationWarning")
                    None 0;
    warnings.Filter "ignore" None (warnings.Subclass "ImportWarning") None 0;
    warnings.Filter "ignore" None (warnings.Subclass "ResourceWarning") None 0 ].

Definition outcome (flag : bool) (env : gmap string string) :=
  run lib env abspath flag default_filters 0%nat.


End Demo.

(** ** Symbolic execution of a run *)

Ltac run_unfold :=
  cbv [run notebook_with cell1 cell2 backend import call environ_get raise
       warnings_filterwarnings record mbind mret M_bind M_ret
       filters world log data_file data_url].

Ltac run_step lib :=
  match goal with
  | |- context [lib ?c ?w] => destruct (lib c w) as [[?ans|?err] ?wld] eqn:?
  end; cbv beta iota.

(** Every way the rest of a run can go: one goal per point at which a
    library call may raise, and one for the run that completes. *)
Ltac run_paths lib :=
  repeat run_step lib;
  cbn [fst snd log filters world stmts calls map omap list_omap what in_force app].

Ltac run_cases lib environ flag :=
  cbv zeta; destruct flag; run_unfold;
  [ destruct (environ !! "USER") as [?user|] eqn:?; cbv beta iota | ];
  run_paths lib.

(** Membership in an explicit list, case by case. *)
Ltac each_member :=
  intros; decompose_list_elem_of; simplify_eq; eauto.

(** A position [i] of an explicit list, case by case: [H] says what is
    found there. *)
Ltac each_index i H :=
  cbn [lookup list_lookup] in H;
  repeat (lazymatch type of H with
          | None = Some _ => fail
          | context [i] =>
              destruct i as [|i]; cbn [lookup list_lookup] in H; [simplify_eq |]
          end);
  try discriminate H.

(** Finds a statement in an explicit list. *)
Ltac find_member :=
  cbn [take];
  repeat first [apply list_elem_of_here | apply list_elem_of_further].

(** * Properties *)

(** ** Patterns *)




(** ** Warnings filters *)



(** ** The regular axis of the notebook *)




Section Properties.

Context {obj W : Type}.
Variable lib : libcall obj -> W -> result obj * W.
Variable environ : gmap string string.
Variable abspath : string -> string.

(** *** Backend setup *)

(** C10: with the TaskVine backend the manager is created under the
    name [$USER-coffea-example-4]; when [USER] is not set the run ends
    with [KeyError] during setup, before any library has been called:
    no file has been read and no histogram declared. *)
Theorem taskvine_session_name (filters0 : list warnings.filter) (w0 : W) :
  let out := run lib environ abspath true filters0 w0 in
  match environ !! "USER" with
  | Some user =>
      head (calls (log out.2)) = Some (DaskVine (user +:+ "-coffea-example-4"))
      /\ forall c : libcall obj, c ∈ calls (log out.2) ->
           forall name, c = DaskVine name -> name = user +:+ "-coffea-example-4"
  | None =>
      out.1 = Raise (KeyError "USER")
      /\ calls (log out.2) = []
      /\ world out.2 = w0
  end.
Proof.
  cbv zeta. run_unfold.
  destruct (environ !! "USER") as [user|]; cbv beta iota; [| done].
  run_paths lib; (split; [done | each_member]).
Qed.

(** *** The reader's input *)


(** *** The histogram *)


(** *** Laziness and materialisation *)




(** *** The backend flag *)

(** The flag reaches the second cell only through the keyword options of
    [compute]: from the same world, the cell makes the same seven calls
    before it, and asks to compute the same lazy node, whatever the
    options are. *)
Lemma pipeline_same_request (kw1 kw2 : gmap string (pyval obj))
    (fs : list warnings.filter) (w : W) :
  let calls_of kw := calls (log (cell2 lib abspath kw (Runtime fs w [])).2) in
  take 7 (calls_of kw1) = take 7 (calls_of kw2)
  /\ (forall q, calls_of kw1 !! 7%nat = Some (compute q kw1)
                <-> calls_of kw2 !! 7%nat = Some (compute q kw2)).
Proof.
  cbv zeta. run_unfold. run_paths lib; cbn [take lookup list_lookup];
    (split; [reflexivity | intros q; split; intros Hq; simplify_eq; reflexivity]).
Qed.

(** *** Failures *)



(** *** Warnings *)


End Properties.

(** ** The notebook on concrete worlds *)

(** The notebook as committed selects TaskVine. *)
Example notebook_selects_taskvine :
  notebook Demo.lib Demo.environ Demo.abspath (Runtime Demo.default_filters 0%nat [])
  = Demo.outcome true Demo.environ.
Proof. reflexivity. Qed.

(** With [USER=alice] and every library call succeeding the run completes;
    the manager is named after the user. *)
Example demo_run_completes :
  (Demo.outcome true Demo.environ).1 = Ok 10%nat
  /\ head (calls (log (Demo.outcome true Demo.environ).2))
     = Some (DaskVine "alice-coffea-example-4").
Proof. split; vm_compute; reflexivity. Qed.

Example demo_user_unset :
  (Demo.outcome true ∅).1 = Raise (KeyError "USER").
Proof. vm_compute. reflexivity. Qed.





(** * More about the notebook *)

(** ** The filter list *)



(** ** Session names *)

Lemma length_append (s t : string) :
  String.length (s +:+ t) = (String.length s + String.length t)%nat.
Proof.
  induction s as [|c s IH]; [done |].
  change (String c s +:+ t) with (String c (s +:+ t)).
  simpl String.length. by rewrite IH.
Qed.

(** A suffix can be cancelled. *)
Lemma append_cancel_r (s1 s2 t : string) : s1 +:+ t = s2 +:+ t -> s1 = s2.
Proof.
  revert s2. induction s1 as [|a s1 IH]; intros [|b s2] Heq.
  - done.
  - change (t = String b (s2 +:+ t)) in Heq.
    apply (f_equal String.length) in Heq.
    simpl String.length in Heq. rewrite length_append in Heq. lia.
  - change (String a (s1 +:+ t) = t) in Heq.
    apply (f_equal String.length) in Heq.
    simpl String.length in Heq. rewrite length_append in Heq. lia.
  - change (String a (s1 +:+ t) = String b (s2 +:+ t)) in Heq.
    injection Heq as -> Heq. f_equal. by apply IH.
Qed.

Section More.

Context {obj W : Type}.
Variable lib : libcall obj -> W -> result obj * W.
Variable environ : gmap string string.
Variable abspath : string -> string.




(** ** What the run reads *)

(** X3: of its environment the run reads the variable [USER], and that
    only with the TaskVine backend; of the working directory it uses what
    [abspath] makes of [data/small_data.root].  Worlds that agree there
    give the same run. *)
Theorem inputs_read (environ' : gmap string string) (abspath' : string -> string)
    (flag : bool) (filters0 : list warnings.filter) (w0 : W) :
  (flag = true -> environ !! "USER" = environ' !! "USER") ->
  abspath "data/small_data.root" = abspath' "data/small_data.root" ->
  run lib environ abspath flag filters0 w0 = run lib environ' abspath' flag filters0 w0.
Proof.
  intros Henv Habs.
  unfold run, notebook_with, cell1, cell2, backend, environ_get, data_file, data_url.
  rewrite Habs. destruct flag; [rewrite (Henv eq_refl) |]; reflexivity.
Qed.

(** ** The backend *)



(** ** The data *)


(** ** How a run ends *)

(** X7: a run that completes ends with [compute], [plot1d] of what was
    computed and [necessary_columns] of the lazy node that was computed,
    whose answer is the value of the last cell; no call of it raised.  A
    run that fails has no such answer. *)
Theorem last_cell_value (flag : bool) (filters0 : list warnings.filter) (w0 : W) :
  let out := run lib environ abspath flag filters0 w0 in
  let done_ := stmts (log out.2) in
  (forall r, out.1 = Ok r ->
     (exists before q kwargs h p,
        done_ = before ++ [ CallLib (compute q kwargs) (Ok h);
                            CallLib (plot1d h) (Ok p);
                            CallLib (necessary_columns q) (Ok r) ])
     /\ (forall s, s ∈ done_ -> forall c e, s <> CallLib c (Raise e)))
  /\ (forall e, out.1 = Raise e ->
        forall s, s ∈ done_ -> forall q r, s <> CallLib (necessary_columns q) (Ok r)).
Proof.
  cbv zeta. split.
  - run_cases lib environ flag;
      (intros r Hr; simplify_eq;
       (split;
        [ eexists [_; _; _; _; _; _; _; _; _; _; _; _; _; _; _];
          do 4 eexists; reflexivity
        | intros s Hs c e'; decompose_list_elem_of; subst; discriminate ])).
  - run_cases lib environ flag;
      (intros e' He; simplify_eq;
       intros s Hs q r; decompose_list_elem_of; subst; discriminate).
Qed.


(** ** No histogram without data *)

(** X9: a histogram is declared, filled, computed or plotted only after
    [from_root] returned a factory for the data file and [events()]
    returned its events. *)
Theorem histogram_needs_events (flag : bool) (filters0 : list warnings.filter)
    (w0 : W) :
  let out := run lib environ abspath flag filters0 w0 in
  let done_ := stmts (log out.2) in
  (forall i c a,
     done_ !! i = Some (CallLib c a) -> histogram_call c = true ->
     exists factory events_,
       CallLib (reader_call abspath) (Ok factory) ∈ take i done_
       /\ CallLib (events factory) (Ok events_) ∈ take i done_)
  /\ (forall r, out.1 = Ok r ->
        exists c : libcall obj, c ∈ calls (log out.2) /\ histogram_call c = true).
Proof.
  cbv zeta. unfold reader_call. split.
  - run_cases lib environ flag;
      (intros i c a Hi Hc; each_index i Hi; try discriminate Hc;
       do 2 eexists; split; find_member).
  - run_cases lib environ flag;
      (intros r Hr; simplify_eq; exists (Reg met_axis);
       (split; [find_member | reflexivity])).
Qed.

(** X10: the TaskVine manager's name tells users apart: runs for two
    different values of [USER] create managers of different names. *)
Theorem session_name_per_user (environ' : gmap string string) (user user' : string)
    (filters0 filters0' : list warnings.filter) (w0 w0' : W) :
  environ !! "USER" = Some user ->
  environ' !! "USER" = Some user' ->
  user <> user' ->
  exists name name',
    head (calls (log (run lib environ abspath true filters0 w0).2))
      = Some (DaskVine name)
    /\ head (calls (log (run lib environ' abspath true filters0' w0').2))
       = Some (DaskVine name')
    /\ name <> name'.
Proof.
  intros Hu Hu' Hne.
  run_unfold. rewrite Hu, Hu'. cbv beta iota.
  run_paths lib;
    (do 2 eexists; split_and!;
     [ reflexivity | reflexivity
     | intros Heq; apply Hne; by eapply append_cancel_r ]).
Qed.

End More.

Lemma inputs_read_witness :
  run Demo.lib Demo.environ Demo.abspath true Demo.default_filters 0%nat
  = run Demo.lib (<["HOME" := "/home/alice"]> Demo.environ)
        (fun path => if decide (path = "data/small_data.root")
                     then "/home/alice/data/small_data.root" else path)
        true Demo.default_filters 0%nat.
Proof.
  apply (inputs_read Demo.lib Demo.environ Demo.abspath
           (<["HOME" := "/home/alice"]> Demo.environ)
           (fun path => if decide (path = "data/small_data.root")
                        then "/home/alice/data/small_data.root" else path)
           true Demo.default_filters 0%nat).
  - intros _. vm_compute. reflexivity.
  - vm_compute. reflexivity.
Defined.

Lemma session_name_per_user_witness :
  exists name name',
    head (calls (log (run Demo.lib Demo.environ Demo.abspath true
                        Demo.default_filters 0%nat).2)) = Some (DaskVine name)
    /\ head (calls (log (run Demo.lib {[ "USER" := "bob" ]} Demo.abspath true
                          Demo.default_filters 0%nat).2)) = Some (DaskVine name')
    /\ name <> name'.
Proof.
  apply (session_name_per_user Demo.lib Demo.environ Demo.abspath
           {[ "USER" := "bob" ]} "alice" "bob").
  - vm_compute. reflexivity.
  - vm_compute. reflexivity.
  - discriminate.
Defined.
